(** * Library catalogue front end: search, add and delete views

    A shallow embedding of the React views under
    [frontend/src/routes/_layout/books] and of the [DeleteBook] component.
    Component state ([useState], [useMutation], the query cache, the toast
    list and the log of requests handed to the API client) is threaded
    explicitly; every event handler is a function on that state. *)

From Stdlib Require Import ZArith.
From stdpp Require Import base strings list gmap fin_maps.

Local Open Scope Z_scope.

(** ** JavaScript values the views branch on *)
Module Js.

(** [ToBoolean] of a string: only the empty string is falsy. *)
Definition truthy_str (s : string) : bool :=
  match s with
  | EmptyString => false
  | String _ _ => true
  end.

(** [ToBoolean] of [boolean | undefined]. *)
Definition truthy_flag (b : option bool) : bool :=
  match b with
  | Some true => true
  | Some false | None => false
  end.

(** [s || undefined] on a string [s]. *)
Definition or_undefined (s : string) : option string :=
  if truthy_str s then Some s else None.

(** [v || d] where [v : string | null | undefined]. *)
Definition or_else (v : option string) (d : string) : string :=
  match v with
  | Some s => if truthy_str s then s else d
  | None => d
  end.

(** The character U+0022, for template literals that quote a title. *)
Definition dquote : string := String (Ascii.ascii_of_nat 34) EmptyString.

End Js.

(** ** Types of the generated API client *)
Module Client.

Record UserPublic := {
  email : string;
  full_name : option string;
  is_superuser : option bool;
}.

Inductive Availability := IN | OUT.

Record BookSearchResult := {
  isbn : string;
  title : string;
  authors : option string;
  available : Availability;
}.

(** The row type of the generic table and of [DeleteBook]'s prop. *)
Record BookPublic := {
  pub_isbn : string;
  pub_title : string;
}.

(** A search row passed where a [BookPublic] is expected: the structural
    subtype keeps [isbn] and [title]. *)
Definition as_public (b : BookSearchResult) : BookPublic :=
  {| pub_isbn := isbn b; pub_title := title b |}.

(** Response of [BooksService.searchBooks]; the table reads [books.data]. *)
Record BooksSearchResponse := { data : list BookSearchResult }.

(** Argument object of [BooksService.searchBooks]. *)
Record SearchBooksData := {
  query : option string;
  skip : Z;
  limit : Z;
}.

(** Argument object of [BooksService.deleteBook]. *)
Record DeleteBookData := { del_isbn : string }.

(** Argument object of [BooksService.createBook]. *)
Record CreateBookData := {
  new_isbn : string;
  new_title : string;
  new_authorName : string;
}.

(** A rejected request, as the [onError] handlers read it: [error.message]. *)
Record ApiError := { message : option string }.

#[global] Instance Availability_eq_dec : EqDecision Availability.
Proof. solve_decision. Defined.

(** [user?.is_superuser], where [user] may be null or undefined. *)
Definition opt_is_superuser (user : option UserPublic) : option bool :=
  user ≫= is_superuser.

End Client.

(** ** The query cache of [@tanstack/react-query], as far as the views use it *)
Module QueryClient.

(** Query keys are arrays of strings here: [["books"]], [["books", query]]. *)
Abbreviation QueryKey := (list string) (only parsing).

Record Query (A : Type) := {
  state_data : A;
  isInvalidated : bool;
}.
Arguments state_data {A} _.
Arguments isInvalidated {A} _.

(** [partialMatchKey(key, filter)] on array keys: every index present in the
    filter holds the same element in the key. *)
Fixpoint partialMatchKey (filter key : QueryKey) : bool :=
  match filter, key with
  | [], _ => true
  | _ :: _, [] => false
  | f :: filter', k :: key' => bool_decide (f = k) && partialMatchKey filter' key'
  end.

Definition invalidate {A} (q : Query A) : Query A :=
  {| state_data := state_data q; isInvalidated := true |}.

(** [queryClient.invalidateQueries({ queryKey: filter })]. *)
Definition invalidateQueries {A} (filter : QueryKey)
    (cache : gmap (list string) (Query A)) : gmap (list string) (Query A) :=
  map_imap (λ key q, Some (if partialMatchKey filter key then invalidate q else q)) cache.

(** [useSuspenseQuery({ queryKey, queryFn })] once the promise has settled.
    [request] is the argument object [queryFn] hands to the service: an entry
    that is missing or invalidated is fetched with it and stored under
    [queryKey]; a fresh entry is reused. *)
Definition useSuspenseQuery {R A} (service : R → A) (queryKey : QueryKey) (request : R)
    (cache : gmap (list string) (Query A)) : A * gmap (list string) (Query A) :=
  let refetch :=
    let d := service request in
    (d, <[queryKey := {| state_data := d; isInvalidated := false |}]> cache) in
  match cache !! queryKey with
  | Some q => if isInvalidated q then refetch else (state_data q, cache)
  | None => refetch
  end.

(** [mutation.status] of [useMutation]; [isPending] is [status === "pending"]. *)
Inductive MutationStatus := idle | pending | success | error.

Definition isPending (st : MutationStatus) : bool :=
  match st with
  | pending => true
  | idle | success | error => false
  end.

End QueryClient.

(** ** [useToast] *)
Module UseToast.

Record Toast := {
  toast_title : string;
  toast_description : string;
  toast_variant : option string;
}.

End UseToast.

(** ** [components/Books/DeleteBook.tsx] *)
Module DeleteBook.
Import Js Client QueryClient UseToast.

(** What the component holds between renders: its [useState] flag and the
    [useMutation] status; and what its callbacks write to: the toast list,
    the query cache, and the API client, seen as the log of [deleteBook]
    calls made (newest first) with the count of those not yet settled. *)
Record State := {
  open : bool;
  status : MutationStatus;
  inflight : nat;
  requests : list DeleteBookData;
  toasts : list Toast;
  cache : gmap (list string) (Query BooksSearchResponse);
}.

(** First render: [useState(false)], an idle mutation, nothing requested. *)
Definition mount (toasts0 : list Toast)
    (cache0 : gmap (list string) (Query BooksSearchResponse)) : State :=
  {| open := false; status := idle; inflight := 0%nat; requests := [];
     toasts := toasts0; cache := cache0 |}.

Definition setOpen (b : bool) (s : State) : State :=
  {| open := b; status := status s; inflight := inflight s;
     requests := requests s; toasts := toasts s; cache := cache s |}.

Definition toast (t : Toast) (s : State) : State :=
  {| open := open s; status := status s; inflight := inflight s;
     requests := requests s; toasts := t :: toasts s; cache := cache s |}.

Definition invalidateBooks (s : State) : State :=
  {| open := open s; status := status s; inflight := inflight s;
     requests := requests s; toasts := toasts s;
     cache := invalidateQueries ["books"] (cache s) |}.

(** A user gesture or the settling of the request's promise. *)
Inductive Event :=
  | ClickIcon
  | ClickCancel
  | Dismiss
  | ClickAction
  | Resolved
  | Rejected (e : ApiError).

Record DialogView := {
  dialog_description : string;
  action_label : string;
  action_disabled : bool;
}.

(** The fragment returned by the component: the trash icon button, and the
    dialog content while [open] holds. *)
Record View := { dialog : option DialogView }.

Section Component.

Variable book : BookPublic.
Variable user : option UserPublic.

(** [AlertDialogAction] comes from [@/components/ui/alert-dialog], a wrapper
    around a dialog primitive: whether it also asks the dialog to close
    after running [onClick] is left open. *)
Variable action_closes : bool.

(** [mutationFn: () => BooksService.deleteBook({ isbn: book.isbn })], run by
    [mutation.mutate()]: the mutation turns pending and the request leaves. *)
Definition mutate (s : State) : State :=
  {| open := open s; status := pending; inflight := S (inflight s);
     requests := {| del_isbn := pub_isbn book |} :: requests s;
     toasts := toasts s; cache := cache s |}.

Definition settled (st : MutationStatus) (s : State) : State :=
  {| open := open s; status := st; inflight := Nat.pred (inflight s);
     requests := requests s; toasts := toasts s; cache := cache s |}.

Definition onSuccess (s : State) : State :=
  setOpen false
    (invalidateBooks
       (toast {| toast_title := "Book deleted";
                 toast_description :=
                   dquote +:+ pub_title book +:+ dquote +:+ " has been deleted successfully.";
                 toast_variant := None |} s)).

Definition onError (e : ApiError) (s : State) : State :=
  toast {| toast_title := "Error deleting book";
           toast_description :=
             or_else (message e) "An error occurred while deleting the book.";
           toast_variant := Some "destructive" |} s.

(** [if (!user?.is_superuser) return null], then the fragment. *)
Definition render (s : State) : option View :=
  if negb (truthy_flag (opt_is_superuser user)) then None
  else Some {| dialog :=
    if open s then
      Some {| dialog_description :=
                "Are you sure you want to delete " +:+ dquote +:+ pub_title book +:+ dquote
                +:+ " (ISBN: " +:+ pub_isbn book +:+ ")? This action cannot be undone.";
              action_label := if isPending (status s) then "Deleting..." else "Delete";
              action_disabled := isPending (status s) |}
    else None |}.

(** The handler wired to each event. *)
Definition handle (ev : Event) (s : State) : State :=
  match ev with
  | ClickIcon => setOpen true s
  | ClickCancel | Dismiss => setOpen false s
  | ClickAction =>
      let s' := mutate s in
      if action_closes then setOpen false s' else s'
  | Resolved => onSuccess (settled success s)
  | Rejected e => onError e (settled error s)
  end.

(** Whether the event can occur: the control that fires it is on screen and
    not disabled; a promise settles only while its request is in flight. *)
Definition enabled (ev : Event) (s : State) : bool :=
  match ev with
  | ClickIcon => bool_decide (is_Some (render s))
  | ClickCancel | Dismiss =>
      match render s with
      | Some {| dialog := Some _ |} => true
      | _ => false
      end
  | ClickAction =>
      match render s with
      | Some {| dialog := Some d |} => negb (action_disabled d)
      | _ => false
      end
  | Resolved | Rejected _ => bool_decide (0 < inflight s)%nat
  end.

(** One event, the component rendering again before the next: each event
    meets the view of the state it finds. [DeleteBookScreen] below lets
    several events meet one render. *)
Definition step (s : State) (ev : Event) : State :=
  if enabled ev s then handle ev s else s.

Definition run (s : State) (evs : list Event) : State := foldl step s evs.

End Component.

End DeleteBook.

(** ** [routes/_layout/books/index.tsx] *)
Module Books.
Import Js Client QueryClient.

(** The object [getBooksQueryOptions] returns. [queryFn] is recorded as the
    argument object of the [BooksService.searchBooks] call it makes. *)
Record QueryOptions := {
  queryFn : SearchBooksData;
  queryKey : list string;
}.

Definition getBooksQueryOptions (query : string) : QueryOptions :=
  {| queryFn := {| query := or_undefined query; skip := 0; limit := 100 |};
     queryKey := ["books"; query] |}.

(** The two [useState] cells of [Books]. *)
Record State := {
  searchQuery : string;
  activeQuery : string;
}.

Definition mount : State := {| searchQuery := ""; activeQuery := "" |}.

(** [onChange={(e) => setSearchQuery(e.target.value)}] *)
Definition onChange (value : string) (s : State) : State :=
  {| searchQuery := value; activeQuery := activeQuery s |}.

Definition handleSearch (s : State) : State :=
  {| searchQuery := searchQuery s; activeQuery := searchQuery s |}.

Definition handleClear (s : State) : State :=
  {| searchQuery := ""; activeQuery := "" |}.

(** Cells of [searchColumns]. *)
Definition authors_cell (row : BookSearchResult) : string :=
  or_else (authors row) "No authors".

Record StatusCell := {
  status_className : string;
  status_text : string;
}.

Definition status_cell (row : BookSearchResult) : StatusCell :=
  {| status_className :=
       if decide (available row = IN) then "text-green-600 font-medium"
       else "text-red-600 font-medium";
     status_text :=
       if decide (available row = IN) then "Available" else "Checked Out" |}.

Record RowView := {
  isbn_cell : string;
  title_cell : string;
  authors_text : string;
  status_view : StatusCell;
  actions_cell : option DeleteBook.View;
}.

(** What [Books] returns: the link around the Add Book button (its target,
    when rendered), the controlled input, the Clear button, and the [query]
    prop handed to [BooksTable]. *)
Record View := {
  add_book_link : option string;
  input_value : string;
  clear_button : bool;
  table_query : string;
}.

Section Page.

Variable searchBooks : SearchBooksData → BooksSearchResponse.
Variable user : option UserPublic.

Definition render_row (cache : gmap (list string) (Query BooksSearchResponse))
    (row : BookSearchResult) : RowView :=
  {| isbn_cell := isbn row;
     title_cell := title row;
     authors_text := authors_cell row;
     status_view := status_cell row;
     actions_cell :=
       DeleteBook.render (as_public row) user (DeleteBook.mount [] cache) |}.

(** [BooksTableContent]: the rows of the resolved query and the cache after it. *)
Definition BooksTableContent (query : string)
    (cache : gmap (list string) (Query BooksSearchResponse))
    : list RowView * gmap (list string) (Query BooksSearchResponse) :=
  let opts := getBooksQueryOptions query in
  let '(books, cache') := useSuspenseQuery searchBooks (queryKey opts) (queryFn opts) cache in
  (render_row cache' <$> data books, cache').

Definition render (s : State) : View :=
  {| add_book_link :=
       if truthy_flag (opt_is_superuser user) then Some "/books/add" else None;
     input_value := searchQuery s;
     clear_button := truthy_str (activeQuery s);
     table_query := activeQuery s |}.

End Page.

End Books.

(** ** [routes/_layout/books/add.tsx] *)
Module AddBook.
Import Js Client QueryClient UseToast.

Record BookFormValues := {
  isbn : string;
  title : string;
  authorName : string;
}.

(** [formState.errors]: at most one message per field. *)
Record FieldErrors := {
  isbn_error : option string;
  title_error : option string;
  authorName_error : option string;
}.

Definition no_errors : FieldErrors :=
  {| isbn_error := None; title_error := None; authorName_error := None |}.

(** [z.string().min(1, msg)] on a value that is a string. *)
Definition string_min1 (msg : string) (v : string) : option string :=
  if (String.length v <? 1)%nat then Some msg else None.

(** [bookSchema] run on the form values: the issues, by field. *)
Definition bookSchema (v : BookFormValues) : FieldErrors :=
  {| isbn_error := string_min1 "ISBN is required" (isbn v);
     title_error := string_min1 "Title is required" (title v);
     authorName_error := string_min1 "Author name is required" (authorName v) |}.

Definition has_errors (e : FieldErrors) : bool :=
  bool_decide (is_Some (isbn_error e)) || bool_decide (is_Some (title_error e))
  || bool_decide (is_Some (authorName_error e)).

(** *** The route guard *)

Inductive LoadResult :=
  | Continue
  | Redirect (to : string)
  | Throw (e : ApiError).

(** [beforeLoad], given how [UsersService.readUserMe()] settled. *)
Definition beforeLoad (readUserMe : UserPublic + ApiError) : LoadResult :=
  match readUserMe with
  | inl user =>
      if negb (truthy_flag (is_superuser user)) then Redirect "/books" else Continue
  | inr e => Throw e
  end.

(** *** The component *)

(** Form values and errors of [useForm], the [useMutation] status, the
    router location, and the same three stores as in [DeleteBook], the log
    being that of [createBook] calls. *)
Record State := {
  values : BookFormValues;
  errors : FieldErrors;
  status : MutationStatus;
  inflight : nat;
  requests : list CreateBookData;
  toasts : list Toast;
  cache : gmap (list string) (Query BooksSearchResponse);
  location : string;
}.

(** [useForm] with its [defaultValues], an idle mutation. *)
Definition mount (toasts0 : list Toast)
    (cache0 : gmap (list string) (Query BooksSearchResponse)) : State :=
  {| values := {| isbn := ""; title := ""; authorName := "" |};
     errors := no_errors; status := idle; inflight := 0%nat; requests := [];
     toasts := toasts0; cache := cache0; location := "/books/add" |}.

(** What the router does with the route: the component is mounted only when
    [beforeLoad] returns; a thrown redirect navigates, any other throw shows
    the error component. *)
Inductive Page :=
  | Rendered (s : State)
  | Navigated (to : string)
  | Failed (e : ApiError).

Definition load (readUserMe : UserPublic + ApiError) (toasts0 : list Toast)
    (cache0 : gmap (list string) (Query BooksSearchResponse)) : Page :=
  match beforeLoad readUserMe with
  | Continue => Rendered (mount toasts0 cache0)
  | Redirect to => Navigated to
  | Throw e => Failed e
  end.

Inductive Field := Isbn | Title | AuthorName.

Inductive Event :=
  | Input (f : Field) (value : string)
  | Submit
  | Resolved
  | Rejected (e : ApiError).

Definition set_field (f : Field) (value : string) (v : BookFormValues) : BookFormValues :=
  match f with
  | Isbn => {| isbn := value; title := title v; authorName := authorName v |}
  | Title => {| isbn := isbn v; title := value; authorName := authorName v |}
  | AuthorName => {| isbn := isbn v; title := title v; authorName := value |}
  end.

Definition onInput (f : Field) (value : string) (s : State) : State :=
  {| values := set_field f value (values s); errors := errors s; status := status s;
     inflight := inflight s; requests := requests s; toasts := toasts s;
     cache := cache s; location := location s |}.

Definition setErrors (e : FieldErrors) (s : State) : State :=
  {| values := values s; errors := e; status := status s;
     inflight := inflight s; requests := requests s; toasts := toasts s;
     cache := cache s; location := location s |}.

Definition toast (t : Toast) (s : State) : State :=
  {| values := values s; errors := errors s; status := status s;
     inflight := inflight s; requests := requests s; toasts := t :: toasts s;
     cache := cache s; location := location s |}.

Definition invalidateBooks (s : State) : State :=
  {| values := values s; errors := errors s; status := status s;
     inflight := inflight s; requests := requests s; toasts := toasts s;
     cache := invalidateQueries ["books"] (cache s); location := location s |}.

Definition navigate (to : string) (s : State) : State :=
  {| values := values s; errors := errors s; status := status s;
     inflight := inflight s; requests := requests s; toasts := toasts s;
     cache := cache s; location := to |}.

(** [mutation.mutate(data)] with
    [mutationFn: (data) => BooksService.createBook({ isbn, title, authorName })]. *)
Definition mutate (data : BookFormValues) (s : State) : State :=
  {| values := values s; errors := errors s; status := pending;
     inflight := S (inflight s);
     requests := {| new_isbn := isbn data; new_title := title data;
                    new_authorName := authorName data |} :: requests s;
     toasts := toasts s; cache := cache s; location := location s |}.

Definition settled (st : MutationStatus) (s : State) : State :=
  {| values := values s; errors := errors s; status := st;
     inflight := Nat.pred (inflight s); requests := requests s;
     toasts := toasts s; cache := cache s; location := location s |}.

Definition onSubmit (data : BookFormValues) (s : State) : State := mutate data s.

(** [form.handleSubmit(onSubmit)] with [resolver: zodResolver(bookSchema)]:
    the resolver's issues become the form errors; [onSubmit] runs with the
    values only when there is none. *)
Definition handleSubmit (s : State) : State :=
  let issues := bookSchema (values s) in
  if has_errors issues then setErrors issues s
  else onSubmit (values s) (setErrors no_errors s).

Definition onSuccess (s : State) : State :=
  navigate "/books"
    (invalidateBooks
       (toast {| toast_title := "Book created";
                 toast_description := "The book has been added successfully.";
                 toast_variant := None |} s)).

Definition onError (e : ApiError) (s : State) : State :=
  toast {| toast_title := "Error creating book";
           toast_description :=
             or_else (message e) "An error occurred while creating the book.";
           toast_variant := Some "destructive" |} s.

Record View := {
  field_values : BookFormValues;
  field_messages : FieldErrors;
  submit_label : string;
  submit_disabled : bool;
}.

Definition render (s : State) : View :=
  {| field_values := values s;
     field_messages := errors s;
     submit_label := if isPending (status s) then "Adding..." else "Add Book";
     submit_disabled := isPending (status s) |}.

Definition handle (ev : Event) (s : State) : State :=
  match ev with
  | Input f value => onInput f value s
  | Submit => handleSubmit s
  | Resolved => onSuccess (settled success s)
  | Rejected e => onError e (settled error s)
  end.

(** The form is submitted through its submit button, which is disabled while
    the mutation is pending; a promise settles only while in flight. *)
Definition enabled (ev : Event) (s : State) : bool :=
  match ev with
  | Input _ _ => true
  | Submit => negb (submit_disabled (render s))
  | Resolved | Rejected _ => bool_decide (0 < inflight s)%nat
  end.

(** One event, the component rendering again before the next. *)
Definition step (s : State) (ev : Event) : State :=
  if enabled ev s then handle ev s else s.

Definition run (s : State) (evs : list Event) : State := foldl step s evs.

End AddBook.

(** ** The search form of [Books], event by event *)
Module SearchForm.
Import Books.

(** Typing in the input, submitting the form, pressing Clear. *)
Inductive Event :=
  | Typed (value : string)
  | SubmitSearch
  | ClickClear.

Definition handle (ev : Event) (s : State) : State :=
  match ev with
  | Typed value => onChange value s
  | SubmitSearch => handleSearch s
  | ClickClear => handleClear s
  end.

Section Form.

Variable user : option Client.UserPublic.

(** The Clear button exists only while [activeQuery] is truthy. *)
Definition enabled (ev : Event) (s : State) : bool :=
  match ev with
  | Typed _ | SubmitSearch => true
  | ClickClear => clear_button (render user s)
  end.

Definition step (s : State) (ev : Event) : State :=
  if enabled ev s then handle ev s else s.

Definition run (s : State) (evs : list Event) : State := foldl step s evs.

End Form.

End SearchForm.

(** ** [routes/_layout/hello.tsx] *)
Module Dashboard.
Import Js Client.

(** [a || b] where both operands are [string | null | undefined]. *)
Definition or_ (a b : option string) : option string :=
  match a with
  | Some s => if truthy_str s then Some s else b
  | None => b
  end.

(** The name in the heading: [currentUser?.full_name || currentUser?.email]. *)
Definition display_name (currentUser : option UserPublic) : option string :=
  or_ (currentUser ≫= full_name) (email <$> currentUser).

End Dashboard.

(** ** [DeleteBook] between two renders *)
Module DeleteBookScreen.
Import Client QueryClient DeleteBook.

(** The mounted control: the state its handlers and its mutation write to,
    and the view committed by the last render. A click reaches only what
    that view shows: its dialog and its [disabled] are those of that render,
    whatever the handlers have written since. *)
Record Mounted := {
  live : State;
  screen : option View;
}.

(** An event of [DeleteBook], or a new render of the component. *)
Inductive Event :=
  | Fire (ev : DeleteBook.Event)
  | Rerender.

Section Component.

Variable book : BookPublic.
Variable user : option UserPublic.
Variable action_closes : bool.

Definition commit (s : State) : Mounted :=
  {| live := s; screen := render book user s |}.

Definition mount (toasts0 : list UseToast.Toast)
    (cache0 : gmap (list string) (Query BooksSearchResponse)) : Mounted :=
  commit (DeleteBook.mount toasts0 cache0).

(** Whether the event can occur: a gesture needs its control in the
    committed view, enabled; a promise settles only while in flight. *)
Definition reachable (ev : DeleteBook.Event) (m : Mounted) : bool :=
  match ev with
  | ClickIcon => bool_decide (is_Some (screen m))
  | ClickCancel | Dismiss =>
      match screen m with
      | Some {| dialog := Some _ |} => true
      | _ => false
      end
  | ClickAction =>
      match screen m with
      | Some {| dialog := Some d |} => negb (action_disabled d)
      | _ => false
      end
  | Resolved | Rejected _ => bool_decide (0 < inflight (live m))%nat
  end.

(** The handlers themselves carry no guard: [onClick] of the action button
    is [() => mutation.mutate()]. *)
Definition step (m : Mounted) (ev : Event) : Mounted :=
  match ev with
  | Fire ev =>
      if reachable ev m
      then {| live := handle book action_closes ev (live m); screen := screen m |}
      else m
  | Rerender => commit (live m)
  end.

Definition run (m : Mounted) (evs : list Event) : Mounted := foldl step m evs.

End Component.

End DeleteBookScreen.

(** ** The add page with its two links to the list *)
Module AddBookPage.
Import AddBook.

(** An event of the form, or a click on [Back to Books] or on [Cancel],
    both [<Link to="/books">]. *)
Inductive Event :=
  | Form (ev : AddBook.Event)
  | ClickBack
  | ClickCancel.

Definition step (s : State) (ev : Event) : State :=
  match ev with
  | Form ev => AddBook.step s ev
  | ClickBack | ClickCancel => navigate "/books" s
  end.

Definition run (s : State) (evs : list Event) : State := foldl step s evs.

End AddBookPage.

(** * Properties *)

(** ** Truthiness and the query cache *)

Lemma truthy_str_nonempty (s : string) : Js.truthy_str s = true ↔ s ≠ "".
Proof. destruct s; simpl; split; congruence. Qed.

Lemma truthy_str_empty (s : string) : Js.truthy_str s = false ↔ s = "".
Proof. destruct s; simpl; split; congruence. Qed.

Lemma or_undefined_nonempty (s : string) : s ≠ "" → Js.or_undefined s = Some s.
Proof. intros Hs. unfold Js.or_undefined. by apply truthy_str_nonempty in Hs as ->. Qed.

Lemma truthy_flag_true (b : option bool) : Js.truthy_flag b = true ↔ b = Some true.
Proof. destruct b as [[|]|]; simpl; split; congruence. Qed.

Lemma partialMatchKey_prefix (filter key : list string) :
  QueryClient.partialMatchKey filter key = true ↔ filter `prefix_of` key.
Proof.
  revert key. induction filter as [|f filter IH]; intros [|k key]; simpl.
  - split; [intros _; apply prefix_nil | done].
  - split; [intros _; apply prefix_nil | done].
  - split; [done | intros H; by apply prefix_nil_not in H].
  - rewrite andb_true_iff, bool_decide_eq_true, IH. split.
    + intros [-> H]. by apply prefix_cons.
    + intros H. split; [by eapply prefix_cons_inv_1 | by eapply prefix_cons_inv_2].
Qed.

Lemma lookup_invalidateQueries {A} (filter : list string) (cache : gmap (list string) (QueryClient.Query A)) key :
  QueryClient.invalidateQueries filter cache !! key =
  (λ q, if QueryClient.partialMatchKey filter key then QueryClient.invalidate q else q)
    <$> cache !! key.
Proof.
  unfold QueryClient.invalidateQueries. rewrite map_lookup_imap.
  by destruct (cache !! key).
Qed.

Lemma useSuspenseQuery_refetch {R A} (service : R → A) (key : list string) (request : R)
    (cache : gmap (list string) (QueryClient.Query A)) :
  (∀ q, cache !! key = Some q → QueryClient.isInvalidated q = true) →
  QueryClient.useSuspenseQuery service key request cache =
    (service request,
     <[key := {| QueryClient.state_data := service request;
                 QueryClient.isInvalidated := false |}]> cache).
Proof.
  intros Hstale. unfold QueryClient.useSuspenseQuery.
  destruct (cache !! key) as [q|] eqn:Hq; [|done].
  by rewrite (Hstale q eq_refl).
Qed.

(** ** The books list view *)

Example getBooksQueryOptions_dune :
  Books.getBooksQueryOptions "Dune" =
  {| Books.queryFn := {| Client.query := Some "Dune"; Client.skip := 0; Client.limit := 100 |};
     Books.queryKey := ["books"; "Dune"] |}.
Proof. reflexivity. Qed.

(** C1: typing any non-empty text [q] into the search input and submitting
    the form makes [q] itself, untrimmed, the active query; the table is
    then rendered for [q], its query options are the [searchBooks] call with
    [query = q], [skip = 0], [limit = 100] under the key [["books"; q]], and
    when the cache holds no fresh entry under that key the rows shown are
    those of that call, stored under that key. *)
Theorem search_submit_commits_query
    (searchBooks : Client.SearchBooksData → Client.BooksSearchResponse)
    (user : option Client.UserPublic) (q : string) (s : Books.State)
    (cache : gmap (list string) (QueryClient.Query Client.BooksSearchResponse)) :
  q ≠ "" →
  let s' := Books.handleSearch (Books.onChange q s) in
  let call := {| Client.query := Some q; Client.skip := 0; Client.limit := 100 |} in
  Books.activeQuery s' = q
  ∧ Books.table_query (Books.render user s') = q
  ∧ Books.getBooksQueryOptions (Books.table_query (Books.render user s')) =
      {| Books.queryFn := call; Books.queryKey := ["books"; q] |}
  ∧ ((∀ e, cache !! ["books"; q] = Some e → QueryClient.isInvalidated e = true) →
     let cache' := <[ ["books"; q] := {| QueryClient.state_data := searchBooks call;
                                         QueryClient.isInvalidated := false |} ]> cache in
     Books.BooksTableContent searchBooks user (Books.activeQuery s') cache =
       (Books.render_row user cache' <$> Client.data (searchBooks call), cache')).
Proof.
  intros Hq. simpl. split_and!; try done.
  - unfold Books.getBooksQueryOptions. by rewrite or_undefined_nonempty.
  - intros Hstale. unfold Books.BooksTableContent, Books.getBooksQueryOptions. simpl.
    rewrite or_undefined_nonempty by done.
    by rewrite useSuspenseQuery_refetch.
Qed.

Lemma search_submit_commits_query_witness :
  let s' := Books.handleSearch (Books.onChange " Dune " Books.mount) in
  Books.activeQuery s' = " Dune "
  ∧ Books.getBooksQueryOptions (Books.activeQuery s') =
      {| Books.queryFn := {| Client.query := Some " Dune "; Client.skip := 0; Client.limit := 100 |};
         Books.queryKey := ["books"; " Dune "] |}.
Proof.
  pose proof (search_submit_commits_query (λ _, {| Client.data := [] |}) None " Dune "
                Books.mount ∅ ltac:(done)) as (H1 & _ & H3 & _).
  split; [exact H1 | exact H3].
Defined.

(** C7: Clear empties the live input value and the active query, whatever
    they were; the table is then rendered for the empty query, whose fetch is
    the [searchBooks] call without a [query], with [skip = 0] and
    [limit = 100]. *)
Theorem clear_resets_to_unrestricted_list
    (user : option Client.UserPublic) (s : Books.State) :
  let s' := Books.handleClear s in
  Books.searchQuery s' = ""
  ∧ Books.activeQuery s' = ""
  ∧ Books.input_value (Books.render user s') = ""
  ∧ Books.table_query (Books.render user s') = ""
  ∧ Books.queryFn (Books.getBooksQueryOptions (Books.table_query (Books.render user s'))) =
      {| Client.query := None; Client.skip := 0; Client.limit := 100 |}.
Proof. by simpl. Qed.

(** C9: for the empty active query the [searchBooks] call carries no
    [query] at all, while the cache key still holds the empty string; [skip]
    is 0 and [limit] is 100 for every query. *)
Theorem empty_query_is_sent_as_undefined :
  Books.getBooksQueryOptions "" =
    {| Books.queryFn := {| Client.query := None; Client.skip := 0; Client.limit := 100 |};
       Books.queryKey := ["books"; ""] |}
  ∧ ∀ q, Client.skip (Books.queryFn (Books.getBooksQueryOptions q)) = 0
         ∧ Client.limit (Books.queryFn (Books.getBooksQueryOptions q)) = 100
         ∧ Books.queryKey (Books.getBooksQueryOptions q) = ["books"; q].
Proof. by split. Qed.

(** C10: a row whose [authors] is null or the empty string shows the text
    [No authors] in the Authors column. *)
Theorem authors_cell_fallback
    (user : option Client.UserPublic)
    (cache : gmap (list string) (QueryClient.Query Client.BooksSearchResponse))
    (row : Client.BookSearchResult) :
  Client.authors row = None ∨ Client.authors row = Some "" →
  Books.authors_cell row = "No authors"
  ∧ Books.authors_text (Books.render_row user cache row) = "No authors".
Proof.
  intros H. unfold Books.render_row, Books.authors_cell. simpl.
  by destruct H as [-> | ->].
Qed.

Lemma authors_cell_fallback_witness :
  Books.authors_cell
    {| Client.isbn := "978-0"; Client.title := "Dune";
       Client.authors := None; Client.available := Client.IN |} = "No authors"
  ∧ Books.authors_cell
    {| Client.isbn := "978-1"; Client.title := "Emma";
       Client.authors := Some ""; Client.available := Client.OUT |} = "No authors".
Proof.
  split.
  - apply (authors_cell_fallback None ∅
             {| Client.isbn := "978-0"; Client.title := "Dune";
                Client.authors := None; Client.available := Client.IN |}).
    left; reflexivity.
  - apply (authors_cell_fallback None ∅
             {| Client.isbn := "978-1"; Client.title := "Emma";
                Client.authors := Some ""; Client.available := Client.OUT |}).
    right; reflexivity.
Defined.

Example authors_cell_present :
  Books.authors_cell
    {| Client.isbn := "978-0"; Client.title := "Dune";
       Client.authors := Some "Frank Herbert"; Client.available := Client.IN |}
  = "Frank Herbert".
Proof. reflexivity. Qed.

(** ** Role gates *)

(** The three ways of not being a superuser in the eyes of
    [user?.is_superuser]: no user, the flag absent, the flag false. *)
Lemma not_superuser_cases (user : option Client.UserPublic) :
  user = None
  ∨ (∃ u, user = Some u ∧ (Client.is_superuser u = None ∨ Client.is_superuser u = Some false))
  ↔ Js.truthy_flag (Client.opt_is_superuser user) = false.
Proof.
  split.
  - intros [-> | (u & -> & [H | H])]; simpl; by rewrite ?H.
  - destruct user as [u|]; [|by left]. simpl. right. exists u.
    destruct (Client.is_superuser u) as [[|]|]; naive_solver.
Qed.

(** C2: when there is no user, or the user's [is_superuser] is absent or
    false, the list view renders no Add Book link and [DeleteBook] returns
    null, in every state of either component and in every row of the table. *)
Theorem non_superuser_sees_no_add_nor_delete
    (user : option Client.UserPublic) (s : Books.State)
    (book : Client.BookPublic) (d : DeleteBook.State) :
  user = None
  ∨ (∃ u, user = Some u ∧ (Client.is_superuser u = None ∨ Client.is_superuser u = Some false)) →
  Books.add_book_link (Books.render user s) = None
  ∧ DeleteBook.render book user d = None
  ∧ ∀ cache row, Books.actions_cell (Books.render_row user cache row) = None.
Proof.
  intros H%not_superuser_cases.
  unfold Books.render, Books.render_row, DeleteBook.render. simpl. by rewrite H.
Qed.

Lemma non_superuser_sees_no_add_nor_delete_witness :
  let reader := {| Client.email := "reader@example.com"; Client.full_name := None;
                   Client.is_superuser := Some false |} in
  let book := {| Client.pub_isbn := "978-0"; Client.pub_title := "Dune" |} in
  Books.add_book_link (Books.render (Some reader) Books.mount) = None
  ∧ DeleteBook.render book (Some reader) (DeleteBook.mount [] ∅) = None.
Proof.
  intros reader book.
  destruct (non_superuser_sees_no_add_nor_delete (Some reader) Books.mount book
              (DeleteBook.mount [] ∅)) as (H1 & H2 & _).
  - right. exists reader. split; [reflexivity | right; reflexivity].
  - split; [exact H1 | exact H2].
Defined.

Example superuser_sees_add_book :
  Books.add_book_link
    (Books.render (Some {| Client.email := "admin@example.com"; Client.full_name := None;
                           Client.is_superuser := Some true |}) Books.mount)
  = Some "/books/add".
Proof. reflexivity. Qed.

(** C3: when [readUserMe] returns a user who is not a superuser,
    [beforeLoad] throws the redirect to [/books] and the route ends there,
    with no [AddBook] state; conversely the component is only ever mounted
    for a fetched user whose [is_superuser] is true. *)
Theorem add_route_redirects_non_superuser
    (user : Client.UserPublic) (toasts0 : list UseToast.Toast)
    (cache0 : gmap (list string) (QueryClient.Query Client.BooksSearchResponse)) :
  Client.is_superuser user ≠ Some true →
  AddBook.beforeLoad (inl user) = AddBook.Redirect "/books"
  ∧ AddBook.load (inl user) toasts0 cache0 = AddBook.Navigated "/books"
  ∧ ∀ fetched s, AddBook.load fetched toasts0 cache0 = AddBook.Rendered s →
      ∃ u, fetched = inl u ∧ Client.is_superuser u = Some true.
Proof.
  intros Hno. rewrite <- truthy_flag_true in Hno. apply not_true_is_false in Hno.
  unfold AddBook.load, AddBook.beforeLoad. rewrite Hno. simpl. split_and!; try done.
  intros [u | e] s; [|done].
  destruct (Js.truthy_flag (Client.is_superuser u)) eqn:Hu; [|done].
  intros _. exists u. by apply truthy_flag_true in Hu.
Qed.

Lemma add_route_redirects_non_superuser_witness :
  AddBook.load
    (inl {| Client.email := "reader@example.com"; Client.full_name := Some "A Reader";
            Client.is_superuser := Some false |}) [] ∅
  = AddBook.Navigated "/books".
Proof.
  apply (add_route_redirects_non_superuser
           {| Client.email := "reader@example.com"; Client.full_name := Some "A Reader";
              Client.is_superuser := Some false |} [] ∅).
  discriminate.
Defined.

(** ** The delete control *)

Section DeleteBookFacts.

Import DeleteBook.

Variable book : Client.BookPublic.
Variable user : option Client.UserPublic.
Variable action_closes : bool.

Local Abbreviation step := (DeleteBook.step book user action_closes).
Local Abbreviation run := (DeleteBook.run book user action_closes).

Lemma run_cons (s : State) ev evs : run s (ev :: evs) = run (step s ev) evs.
Proof. reflexivity. Qed.

(** The action button is live only in an open dialog whose mutation is not
    pending. *)
Lemma enabled_ClickAction (s : State) :
  enabled book user ClickAction s = true →
  open s = true ∧ QueryClient.isPending (status s) = false.
Proof.
  unfold enabled, render.
  destruct (negb _); [done|]. simpl.
  destruct (open s); [|done]. simpl.
  by intros ->%negb_true_iff.
Qed.

(** Only the action button adds a request, and it adds exactly one. *)
Lemma step_requests (s : State) ev :
  requests (step s ev) = requests s
  ∨ ev = ClickAction ∧ enabled book user ClickAction s = true
    ∧ requests (step s ev) = {| Client.del_isbn := Client.pub_isbn book |} :: requests s.
Proof.
  unfold DeleteBook.step. destruct (enabled book user ev s) eqn:Hen; [|by left].
  destruct ev; simpl; try by left.
  right. split_and!; try done. by destruct action_closes.
Qed.


(** C5: Cancel and dismissal change nothing but the dialog's open flag: no
    request, no toast, no cache or mutation change. A [deleteBook] request
    enters the log only through a click on the action button of the open
    dialog, which adds the request for this book's isbn; a run of events
    without such a click sends nothing. *)
Theorem delete_requires_confirmation (s : State) :
  (∀ ev, ev = ClickCancel ∨ ev = Dismiss →
     let s' := step s ev in
     (s' = s ∨ s' = setOpen false s)
     ∧ requests s' = requests s ∧ status s' = status s ∧ inflight s' = inflight s
     ∧ toasts s' = toasts s ∧ cache s' = cache s)
  ∧ (∀ ev, requests (step s ev) ≠ requests s →
       ev = ClickAction ∧ open s = true
       ∧ requests (step s ev) = {| Client.del_isbn := Client.pub_isbn book |} :: requests s)
  ∧ (∀ evs, ClickAction ∉ evs → requests (run s evs) = requests s).
Proof.
  split_and!.
  - intros ev Hev s'. subst s'. unfold DeleteBook.step.
    destruct (enabled book user ev s).
    + destruct Hev as [-> | ->]; simpl; split_and!; auto.
    + split_and!; auto.
  - intros ev Hne. destruct (step_requests s ev)
      as [Heq | (-> & Hen & Hreq)]; [done|].
    by apply enabled_ClickAction in Hen as [Hopen _].
  - intros evs. revert s. induction evs as [|ev evs IH]; intros s Hno; [done|].
    apply not_elem_of_cons in Hno as [Hev Hno].
    rewrite run_cons, IH by done.
    destruct (step_requests s ev) as [Heq | (-> & _)]; done.
Qed.

End DeleteBookFacts.


Lemma delete_requires_confirmation_witness :
  let dune := {| Client.pub_isbn := "978-0"; Client.pub_title := "Dune" |} in
  let admin := {| Client.email := "admin@example.com"; Client.full_name := None;
                  Client.is_superuser := Some true |} in
  let s := DeleteBook.run dune (Some admin) false (DeleteBook.mount [] ∅)
             [DeleteBook.ClickIcon] in
  DeleteBook.open s = true
  ∧ DeleteBook.step dune (Some admin) false s DeleteBook.ClickCancel
    = DeleteBook.setOpen false s
  ∧ DeleteBook.requests (DeleteBook.step dune (Some admin) false s DeleteBook.Dismiss) = [].
Proof.
  intros dune admin s.
  destruct (delete_requires_confirmation dune (Some admin) false s) as (Hquiet & _ & _).
  destruct (Hquiet DeleteBook.ClickCancel (or_introl eq_refl)) as ([Hsame | Hclosed] & _).
  - discriminate (f_equal DeleteBook.open Hsame).
  - destruct (Hquiet DeleteBook.Dismiss (or_intror eq_refl)) as (_ & Hreq & _).
    split_and!; [reflexivity | exact Hclosed | exact Hreq].
Defined.


(** ** The delete control between two renders *)

Section DeleteBookScreenFacts.

Import DeleteBook DeleteBookScreen.

Variable book : Client.BookPublic.
Variable user : option Client.UserPublic.
Variable action_closes : bool.

Local Abbreviation dstep := (DeleteBookScreen.step book user action_closes).
Local Abbreviation drun := (DeleteBookScreen.run book user action_closes).

(** [DeleteBook.step] is an event followed by a render. *)
Lemma fire_then_rerender (s : State) (ev : DeleteBook.Event) :
  dstep (dstep (commit book user s) (Fire ev)) Rerender
  = commit book user (DeleteBook.step book user action_closes s ev).
Proof.
  unfold DeleteBookScreen.step, DeleteBook.step.
  change (reachable ev (commit book user s)) with (enabled book user ev s).
  by destruct (enabled book user ev s).
Qed.




End DeleteBookScreenFacts.



(** ** The add form *)

Lemma string_min1_empty (msg v : string) : v = "" → AddBook.string_min1 msg v = Some msg.
Proof. by intros ->. Qed.

Lemma string_min1_nonempty (msg v : string) : v ≠ "" → AddBook.string_min1 msg v = None.
Proof. by destruct v. Qed.

Lemma bookSchema_passes (v : AddBook.BookFormValues) :
  AddBook.has_errors (AddBook.bookSchema v) = false
  ↔ AddBook.isbn v ≠ "" ∧ AddBook.title v ≠ "" ∧ AddBook.authorName v ≠ "".
Proof.
  destruct v as [[|a i] [|b t] [|c n]]; vm_compute;
    (split; [intros Heq | intros (Hi & Ht & Hn)]); try split_and!; congruence.
Qed.

(** Only a submission that passes the schema adds a request. *)
Lemma handleSubmit_requests (s : AddBook.State) :
  AddBook.requests (AddBook.handleSubmit s) =
  if AddBook.has_errors (AddBook.bookSchema (AddBook.values s))
  then AddBook.requests s
  else {| Client.new_isbn := AddBook.isbn (AddBook.values s);
          Client.new_title := AddBook.title (AddBook.values s);
          Client.new_authorName := AddBook.authorName (AddBook.values s) |}
       :: AddBook.requests s.
Proof.
  unfold AddBook.handleSubmit.
  by destruct (AddBook.has_errors (AddBook.bookSchema (AddBook.values s))).
Qed.

(** C6: submitting the add form with an empty [isbn], [title] or
    [authorName] sends no [createBook] request and changes nothing but the
    form errors, which carry the message of each empty field and none for a
    filled one; with all three filled the request with exactly these values
    is sent; and whatever the event, the request log grows only on a
    submission whose three fields are non-empty. *)
Theorem add_form_validation_blocks_empty (s : AddBook.State) :
  let v := AddBook.values s in
  let s' := AddBook.handleSubmit s in
  (AddBook.isbn v = "" ∨ AddBook.title v = "" ∨ AddBook.authorName v = "" →
     AddBook.requests s' = AddBook.requests s
     ∧ s' = AddBook.setErrors (AddBook.errors s') s
     ∧ AddBook.isbn_error (AddBook.errors s') =
         (if decide (AddBook.isbn v = "") then Some "ISBN is required" else None)
     ∧ AddBook.title_error (AddBook.errors s') =
         (if decide (AddBook.title v = "") then Some "Title is required" else None)
     ∧ AddBook.authorName_error (AddBook.errors s') =
         (if decide (AddBook.authorName v = "") then Some "Author name is required" else None))
  ∧ (AddBook.isbn v ≠ "" → AddBook.title v ≠ "" → AddBook.authorName v ≠ "" →
       AddBook.requests s' =
         {| Client.new_isbn := AddBook.isbn v; Client.new_title := AddBook.title v;
            Client.new_authorName := AddBook.authorName v |} :: AddBook.requests s
       ∧ AddBook.errors s' = AddBook.no_errors)
  ∧ (∀ ev, AddBook.requests (AddBook.step s ev) ≠ AddBook.requests s →
       ev = AddBook.Submit
       ∧ AddBook.isbn v ≠ "" ∧ AddBook.title v ≠ "" ∧ AddBook.authorName v ≠ "").
Proof.
  intros v s'. subst v s'. split_and!.
  - intros Hempty.
    assert (Herr : AddBook.has_errors (AddBook.bookSchema (AddBook.values s)) = true).
    { apply not_false_iff_true. rewrite bookSchema_passes.
      intros (Hi & Ht & Hn). by destruct Hempty as [H | [H | H]]. }
    unfold AddBook.handleSubmit. rewrite Herr. simpl. split_and!; try done.
    + case_decide as H; [by apply string_min1_empty | by apply string_min1_nonempty].
    + case_decide as H; [by apply string_min1_empty | by apply string_min1_nonempty].
    + case_decide as H; [by apply string_min1_empty | by apply string_min1_nonempty].
  - intros Hi Ht Hn.
    assert (Hok : AddBook.has_errors (AddBook.bookSchema (AddBook.values s)) = false)
      by (by apply bookSchema_passes).
    unfold AddBook.handleSubmit. by rewrite Hok.
  - intros ev. unfold AddBook.step. destruct (AddBook.enabled ev s); [|done].
    destruct ev; simpl; try done.
    rewrite handleSubmit_requests.
    destruct (AddBook.has_errors (AddBook.bookSchema (AddBook.values s))) eqn:Herr; [done|].
    intros _. split; [done|]. by apply bookSchema_passes.
Qed.

Lemma add_form_validation_blocks_empty_witness :
  let s := AddBook.run (AddBook.mount [] ∅)
             [AddBook.Input AddBook.Isbn "111";
              AddBook.Input AddBook.AuthorName "Frank Herbert"] in
  AddBook.title (AddBook.values s) = ""
  ∧ AddBook.requests (AddBook.handleSubmit s) = []
  ∧ AddBook.title_error (AddBook.errors (AddBook.handleSubmit s)) = Some "Title is required".
Proof.
  intros s.
  destruct (add_form_validation_blocks_empty s) as (Hblocked & _ & _).
  destruct (Hblocked (or_intror (or_introl eq_refl))) as (Hreq & _ & _ & Htitle & _).
  split_and!; [reflexivity | exact Hreq | exact Htitle].
Defined.

Example empty_title_is_blocked :
  let s := AddBook.run (AddBook.mount [] ∅)
             [AddBook.Input AddBook.Isbn "111"; AddBook.Input AddBook.AuthorName "Frank Herbert";
              AddBook.Submit] in
  AddBook.requests s = []
  ∧ AddBook.errors s =
      {| AddBook.isbn_error := None; AddBook.title_error := Some "Title is required";
         AddBook.authorName_error := None |}.
Proof. vm_compute. done. Qed.

Example filled_form_is_sent :
  AddBook.requests
    (AddBook.run (AddBook.mount [] ∅)
       [AddBook.Input AddBook.Isbn "111"; AddBook.Input AddBook.Title "Dune";
        AddBook.Input AddBook.AuthorName "Frank Herbert"; AddBook.Submit])
  = [{| Client.new_isbn := "111"; Client.new_title := "Dune";
        Client.new_authorName := "Frank Herbert" |}].
Proof. vm_compute. reflexivity. Qed.

(** * Further properties of the views *)

(** ** The search form *)

Section SearchFormFacts.

Variable user : option Client.UserPublic.

Local Abbreviation srun := (SearchForm.run user).
Local Abbreviation sstep := (SearchForm.step user).

Lemma search_run_snoc (s : Books.State) evs ev :
  srun s (evs ++ [ev]) = sstep (srun s evs) ev.
Proof. unfold SearchForm.run. by rewrite foldl_snoc. Qed.

(** X1: however much is typed into the search input, the active query, and
    with it the query options of the table, stay what they were; the input
    shows the last text typed. *)
Theorem typing_never_changes_active_query (typed : list string) (s : Books.State) :
  let s' := srun s (SearchForm.Typed <$> typed) in
  Books.activeQuery s' = Books.activeQuery s
  ∧ Books.getBooksQueryOptions (Books.table_query (Books.render user s'))
    = Books.getBooksQueryOptions (Books.table_query (Books.render user s))
  ∧ Books.input_value (Books.render user s') = default (Books.searchQuery s) (last typed).
Proof.
  revert s. induction typed as [|v typed IH]; intros s; [done|].
  destruct (IH (Books.onChange v s)) as (Hactive & Hopts & Hinput).
  cbn zeta in *.
  change (srun s (SearchForm.Typed <$> v :: typed))
    with (srun (Books.onChange v s) (SearchForm.Typed <$> typed)).
  rewrite Hactive, Hopts, Hinput, last_cons. split_and!; try done.
  by destruct (last typed).
Qed.

(** X2: the Clear button is on screen exactly when the table's fetch carries
    a [query]; once Clear has been pressed, or could not be, it is gone. *)
Theorem clear_button_iff_restricted (s : Books.State) :
  (Books.clear_button (Books.render user s) = true
   ↔ Client.query (Books.queryFn (Books.getBooksQueryOptions
                                     (Books.table_query (Books.render user s))))
     = Some (Books.activeQuery s))
  ∧ (Books.clear_button (Books.render user s) = false
     ↔ Client.query (Books.queryFn (Books.getBooksQueryOptions
                                       (Books.table_query (Books.render user s))))
       = None)
  ∧ Books.clear_button (Books.render user (sstep s SearchForm.ClickClear)) = false.
Proof.
  unfold SearchForm.step, SearchForm.enabled. simpl. unfold Js.or_undefined.
  destruct (Js.truthy_str (Books.activeQuery s)) eqn:Hq; simpl; by rewrite ?Hq.
Qed.

(** X5: in every state reached from the first render by typing, submitting
    and clearing, the active query is the empty string or a text that was
    typed into the input, and so is the input's value. *)
Theorem active_query_was_typed (evs : list SearchForm.Event) :
  let s := srun Books.mount evs in
  (Books.activeQuery s = "" ∨ SearchForm.Typed (Books.activeQuery s) ∈ evs)
  ∧ (Books.searchQuery s = "" ∨ SearchForm.Typed (Books.searchQuery s) ∈ evs).
Proof.
  induction evs as [|ev evs IH] using rev_ind; [by split; left|].
  cbn zeta in *. rewrite search_run_snoc.
  destruct IH as [Ha Hs]. unfold SearchForm.step.
  destruct (SearchForm.enabled user ev (srun Books.mount evs)).
  - destruct ev as [v| |]; simpl; split; try (by left);
      try (right; apply elem_of_app; right; by apply list_elem_of_singleton);
      match goal with H : _ ∨ _ |- _ ∨ _ =>
        destruct H as [H | H]; [by left | right; apply elem_of_app; by left] end.
  - split; match goal with H : _ ∨ _ |- _ =>
        destruct H as [H | H]; [by left | right; apply elem_of_app; by left] end.
Qed.

End SearchFormFacts.

(** X3: two queries have the same cache key exactly when they are the same
    string, and exactly then they make the same [searchBooks] call: no cache
    entry is shared between different searches. *)
Theorem query_key_determines_request (q1 q2 : string) :
  (Books.queryKey (Books.getBooksQueryOptions q1)
   = Books.queryKey (Books.getBooksQueryOptions q2) ↔ q1 = q2)
  ∧ (Books.queryFn (Books.getBooksQueryOptions q1)
     = Books.queryFn (Books.getBooksQueryOptions q2) ↔ q1 = q2).
Proof.
  split; (split; [|by intros ->]); simpl.
  - by intros [= ->].
  - unfold Js.or_undefined. intros [= H].
    destruct q1, q2; simpl in H; congruence.
Qed.

(** X4: the Status cell never mixes its two looks: a book that is in shows
    [Available] in green, any other shows [Checked Out] in red. *)
Theorem status_cell_consistent (row : Client.BookSearchResult) :
  (Client.available row = Client.IN
   ∧ Books.status_cell row =
       {| Books.status_className := "text-green-600 font-medium";
          Books.status_text := "Available" |})
  ∨ (Client.available row = Client.OUT
     ∧ Books.status_cell row =
         {| Books.status_className := "text-red-600 font-medium";
            Books.status_text := "Checked Out" |}).
Proof.
  unfold Books.status_cell. destruct (Client.available row); [left | right]; done.
Qed.

(** ** The query cache under invalidation *)

Lemma invalidateQueries_books_stale {A}
    (cache : gmap (list string) (QueryClient.Query A)) (q : string) (e : QueryClient.Query A) :
  QueryClient.invalidateQueries ["books"] cache !! ["books"; q] = Some e →
  QueryClient.isInvalidated e = true.
Proof.
  assert (Hunder : QueryClient.partialMatchKey ["books"] ["books"; q] = true)
    by (apply partialMatchKey_prefix; by exists [q]).
  rewrite lookup_invalidateQueries, Hunder.
  destruct (cache !! ["books"; q]); simpl; [|done]. by intros [= <-].
Qed.

(** X6: after a delete or a create has succeeded, the table of any search,
    empty or not, is filled from a new [searchBooks] call for that search,
    whatever the cache held for it before, and the answer is stored afresh
    under the search's key. *)
Theorem search_refetches_after_success
    (searchBooks : Client.SearchBooksData → Client.BooksSearchResponse)
    (user : option Client.UserPublic) (q : string)
    (book : Client.BookPublic) (deleter : option Client.UserPublic) (action_closes : bool)
    (d : DeleteBook.State) (a : AddBook.State) :
  let fetched := searchBooks (Books.queryFn (Books.getBooksQueryOptions q)) in
  let refreshed cache :=
    <[ ["books"; q] := {| QueryClient.state_data := fetched;
                          QueryClient.isInvalidated := false |} ]> cache in
  let after_delete :=
    DeleteBook.cache (DeleteBook.step book deleter action_closes d DeleteBook.Resolved) in
  let after_create := AddBook.cache (AddBook.step a AddBook.Resolved) in
  ((0 < DeleteBook.inflight d)%nat →
     Books.BooksTableContent searchBooks user q after_delete
     = (Books.render_row user (refreshed after_delete) <$> Client.data fetched,
        refreshed after_delete))
  ∧ ((0 < AddBook.inflight a)%nat →
       Books.BooksTableContent searchBooks user q after_create
       = (Books.render_row user (refreshed after_create) <$> Client.data fetched,
          refreshed after_create)).
Proof.
  cbn zeta. split; intros Hfly.
  - unfold DeleteBook.step, DeleteBook.enabled. rewrite bool_decide_true by done. simpl.
    unfold Books.BooksTableContent. simpl.
    rewrite useSuspenseQuery_refetch; [done|]. apply invalidateQueries_books_stale.
  - unfold AddBook.step, AddBook.enabled. rewrite bool_decide_true by done. simpl.
    unfold Books.BooksTableContent. simpl.
    rewrite useSuspenseQuery_refetch; [done|]. apply invalidateQueries_books_stale.
Qed.

Lemma search_refetches_after_success_witness :
  let dune := {| Client.isbn := "978-0"; Client.title := "Dune";
                 Client.authors := Some "Frank Herbert"; Client.available := Client.IN |} in
  let emma := {| Client.isbn := "978-1"; Client.title := "Emma";
                 Client.authors := None; Client.available := Client.OUT |} in
  let admin := {| Client.email := "admin@example.com"; Client.full_name := None;
                  Client.is_superuser := Some true |} in
  let stale : gmap (list string) (QueryClient.Query Client.BooksSearchResponse) :=
    {[ ["books"; ""] := {| QueryClient.state_data := {| Client.data := [dune; emma] |};
                           QueryClient.isInvalidated := false |} ]} in
  let d := DeleteBook.run (Client.as_public dune) (Some admin) false
             (DeleteBook.mount [] stale) [DeleteBook.ClickIcon; DeleteBook.ClickAction] in
  Books.authors_text
    <$> (Books.BooksTableContent (λ _, {| Client.data := [emma] |}) (Some admin) ""
           (DeleteBook.cache
              (DeleteBook.step (Client.as_public dune) (Some admin) false d
                 DeleteBook.Resolved))).1
  = ["No authors"].
Proof.
  intros dune emma admin stale d.
  destruct (search_refetches_after_success (λ _, {| Client.data := [emma] |}) (Some admin) ""
              (Client.as_public dune) (Some admin) false d (AddBook.mount [] ∅))
    as [Hdel _].
  rewrite (Hdel ltac:(vm_compute; lia)). reflexivity.
Defined.

(** ** More on the delete control *)

Section DeleteBookRuns.

Import DeleteBook.

Variable book : Client.BookPublic.
Variable user : option Client.UserPublic.
Variable action_closes : bool.

Local Abbreviation step := (DeleteBook.step book user action_closes).
Local Abbreviation run := (DeleteBook.run book user action_closes).

Lemma delete_run_snoc (s : State) evs ev : run s (evs ++ [ev]) = step (run s evs) ev.
Proof. unfold DeleteBook.run. by rewrite foldl_snoc. Qed.

(** Every event keeps the balance between toasts shown, requests sent and
    requests still in flight. *)
Lemma step_toast_balance (s : State) ev :
  (length (toasts (step s ev)) + inflight (step s ev) + length (requests s)
   = length (toasts s) + inflight s + length (requests (step s ev)))%nat.
Proof.
  unfold DeleteBook.step. destruct (enabled book user ev s) eqn:Hen; [|done].
  destruct ev; simpl in *; try done.
  - destruct action_closes; simpl; lia.
  - apply bool_decide_eq_true in Hen. lia.
  - apply bool_decide_eq_true in Hen. lia.
Qed.

(** Among the handlers only [onSuccess] writes to the cache. *)
Lemma step_cache (s : State) ev :
  ev ≠ Resolved → cache (step s ev) = cache s.
Proof.
  intros Hev. unfold DeleteBook.step. destruct (enabled book user ev s); [|done].
  destruct ev; simpl; try done.
  by destruct action_closes.
Qed.

(** X7: every [deleteBook] request a control ever sends, whatever the
    sequence of clicks and settled promises, carries the isbn of the book the
    control was rendered for. *)
Theorem delete_requests_target_own_book
    (toasts0 : list UseToast.Toast)
    (cache0 : gmap (list string) (QueryClient.Query Client.BooksSearchResponse))
    (evs : list Event) :
  Forall (λ r, Client.del_isbn r = Client.pub_isbn book)
    (requests (run (mount toasts0 cache0) evs)).
Proof.
  induction evs as [|ev evs IH] using rev_ind; [by apply Forall_nil|].
  rewrite delete_run_snoc.
  destruct (step_requests book user action_closes (run (mount toasts0 cache0) evs) ev)
    as [-> | (_ & _ & ->)]; [done|].
  by apply Forall_cons.
Qed.

(** X8: for someone who is not a superuser the control is inert: from a
    state with nothing in flight, no sequence of events changes anything: no
    dialog, no request, no toast, no cache change. *)
Theorem non_superuser_control_is_inert (s : State) (evs : list Event) :
  Client.opt_is_superuser user ≠ Some true →
  inflight s = 0%nat →
  run s evs = s.
Proof.
  intros Hno Hidle. rewrite <- truthy_flag_true in Hno. apply not_true_is_false in Hno.
  induction evs as [|ev evs IH] using rev_ind; [done|].
  rewrite delete_run_snoc, IH. unfold DeleteBook.step, enabled, render.
  rewrite Hno, Hidle. by destruct ev.
Qed.

(** X9: each settled delete request has shown exactly one toast: in every
    state reached from the first render, the toasts added since then and the
    requests still in flight add up to the requests sent. *)
Theorem every_settled_delete_toasts_once
    (toasts0 : list UseToast.Toast)
    (cache0 : gmap (list string) (QueryClient.Query Client.BooksSearchResponse))
    (evs : list Event) :
  let s := run (mount toasts0 cache0) evs in
  (length (toasts s) + inflight s = length toasts0 + length (requests s))%nat.
Proof.
  induction evs as [|ev evs IH] using rev_ind; [done|].
  cbn zeta in *. rewrite delete_run_snoc.
  pose proof (step_toast_balance (run (mount toasts0 cache0) evs) ev). lia.
Qed.

(** X10: the control writes to the query cache only when a delete request
    has resolved: after any sequence of clicks, cancels, dismissals and
    failed requests the cache is exactly what it was, so nothing but a
    successful delete marks a search as stale. *)
Theorem delete_cache_untouched_without_success (s : State) (evs : list Event) :
  Resolved ∉ evs → cache (run s evs) = cache s.
Proof.
  induction evs as [|ev evs IH] using rev_ind; [done|].
  intros Hno. rewrite delete_run_snoc, step_cache.
  - apply IH. intros Hin. apply Hno, elem_of_app. by left.
  - intros ->. apply Hno, elem_of_app. right. by apply list_elem_of_singleton.
Qed.

(** X11: after a failed delete the user can try again at once: with the
    dialog open, the action button is enabled and reads [Delete], and
    clicking it sends a new request for the same isbn. *)
Theorem delete_retry_after_failure (s : State) (e : Client.ApiError) :
  Client.opt_is_superuser user = Some true →
  open s = true →
  (0 < inflight s)%nat →
  let failed := step s (Rejected e) in
  (∃ d, render book user failed = Some {| dialog := Some d |}
        ∧ action_label d = "Delete" ∧ action_disabled d = false)
  ∧ requests (step failed ClickAction)
    = {| Client.del_isbn := Client.pub_isbn book |} :: requests s.
Proof.
  intros Hsuper Hopen Hfly. cbn zeta.
  assert (Hfailed : step s (Rejected e) = onError e (settled QueryClient.error s)).
  { unfold DeleteBook.step, enabled. by rewrite bool_decide_true. }
  rewrite Hfailed. split.
  - unfold render. rewrite Hsuper. simpl. rewrite Hopen. eauto.
  - unfold DeleteBook.step, enabled, render. rewrite Hsuper. simpl. rewrite Hopen. simpl.
    by destruct action_closes.
Qed.

(** X12: the confirmation dialog opens only on a click on the trash icon by
    a superuser; a sequence of events without such a click leaves a closed
    dialog closed. *)
Theorem dialog_opens_only_by_icon (s : State) :
  (∀ ev, open s = false → open (step s ev) = true →
     ev = ClickIcon ∧ Client.opt_is_superuser user = Some true)
  ∧ (∀ evs, open s = false → ClickIcon ∉ evs → open (run s evs) = false).
Proof.
  assert (Hstep : ∀ s ev, open s = false → open (step s ev) = true →
            ev = ClickIcon ∧ Client.opt_is_superuser user = Some true).
  { clear s. intros s ev Hclosed. unfold DeleteBook.step.
    destruct (enabled book user ev s) eqn:Hen; [|congruence].
    destruct ev; simpl in *; try congruence.
    - intros _. split; [done|]. apply truthy_flag_true.
      apply bool_decide_eq_true in Hen. unfold render in Hen.
      destruct (Js.truthy_flag (Client.opt_is_superuser user)); [done|].
      by destruct Hen.
    - destruct action_closes; simpl; congruence. }
  split; [apply Hstep|].
  intros evs Hclosed. induction evs as [|ev evs IH] using rev_ind; [done|].
  intros Hno. rewrite delete_run_snoc.
  assert (Hprev : open (run s evs) = false).
  { apply IH. intros Hin. apply Hno, elem_of_app. by left. }
  destruct (open (step (run s evs) ev)) eqn:Hnow; [|done].
  destruct (Hstep _ _ Hprev Hnow) as [-> _].
  exfalso. apply Hno, elem_of_app. right. by apply list_elem_of_singleton.
Qed.

End DeleteBookRuns.

Lemma delete_cache_untouched_without_success_witness :
  let dune := {| Client.pub_isbn := "978-0"; Client.pub_title := "Dune" |} in
  let admin := {| Client.email := "admin@example.com"; Client.full_name := None;
                  Client.is_superuser := Some true |} in
  let cached : gmap (list string) (QueryClient.Query Client.BooksSearchResponse) :=
    {[ ["books"; "Dune"] := {| QueryClient.state_data := {| Client.data := [] |};
                               QueryClient.isInvalidated := false |} ]} in
  DeleteBook.cache
    (DeleteBook.run dune (Some admin) false (DeleteBook.mount [] cached)
       [DeleteBook.ClickIcon; DeleteBook.ClickAction;
        DeleteBook.Rejected {| Client.message := None |}; DeleteBook.ClickCancel])
  = cached.
Proof.
  intros dune admin cached.
  apply (delete_cache_untouched_without_success dune (Some admin) false
           (DeleteBook.mount [] cached)
           [DeleteBook.ClickIcon; DeleteBook.ClickAction;
            DeleteBook.Rejected {| Client.message := None |}; DeleteBook.ClickCancel]).
  intros Hin. repeat (apply elem_of_cons in Hin as [Hin | Hin]; [discriminate|]).
  by apply elem_of_nil in Hin.
Defined.

Lemma non_superuser_control_is_inert_witness :
  let dune := {| Client.pub_isbn := "978-0"; Client.pub_title := "Dune" |} in
  let reader := {| Client.email := "reader@example.com"; Client.full_name := None;
                   Client.is_superuser := Some false |} in
  DeleteBook.run dune (Some reader) true (DeleteBook.mount [] ∅)
    [DeleteBook.ClickIcon; DeleteBook.ClickAction; DeleteBook.Resolved]
  = DeleteBook.mount [] ∅.
Proof.
  intros dune reader.
  apply (non_superuser_control_is_inert dune (Some reader) true (DeleteBook.mount [] ∅)
           [DeleteBook.ClickIcon; DeleteBook.ClickAction; DeleteBook.Resolved]).
  - discriminate.
  - reflexivity.
Defined.

Lemma delete_retry_after_failure_witness :
  let dune := {| Client.pub_isbn := "978-0"; Client.pub_title := "Dune" |} in
  let admin := {| Client.email := "admin@example.com"; Client.full_name := None;
                  Client.is_superuser := Some true |} in
  DeleteBook.requests
    (DeleteBook.run dune (Some admin) false (DeleteBook.mount [] ∅)
       [DeleteBook.ClickIcon; DeleteBook.ClickAction;
        DeleteBook.Rejected {| Client.message := None |}; DeleteBook.ClickAction])
  = [{| Client.del_isbn := "978-0" |}; {| Client.del_isbn := "978-0" |}].
Proof.
  intros dune admin.
  destruct (delete_retry_after_failure dune (Some admin) false
              (DeleteBook.run dune (Some admin) false (DeleteBook.mount [] ∅)
                 [DeleteBook.ClickIcon; DeleteBook.ClickAction])
              {| Client.message := None |} eq_refl eq_refl ltac:(vm_compute; lia))
    as [_ Hretry].
  exact Hretry.
Defined.

(** X13: a superuser sees the Add Book link to [/books/add] and, in every
    row, the delete control with its dialog closed; a click on the trash icon
    opens the dialog, which names the book's title and isbn and offers an
    enabled [Delete] button. *)
Theorem superuser_sees_add_and_delete
    (user : option Client.UserPublic) (s : Books.State) (book : Client.BookPublic)
    (action_closes : bool) (toasts0 : list UseToast.Toast)
    (cache0 : gmap (list string) (QueryClient.Query Client.BooksSearchResponse)) :
  Client.opt_is_superuser user = Some true →
  Books.add_book_link (Books.render user s) = Some "/books/add"
  ∧ (∀ cache row, Books.actions_cell (Books.render_row user cache row)
                  = Some {| DeleteBook.dialog := None |})
  ∧ DeleteBook.render book user (DeleteBook.mount toasts0 cache0)
    = Some {| DeleteBook.dialog := None |}
  ∧ DeleteBook.render book user
      (DeleteBook.step book user action_closes (DeleteBook.mount toasts0 cache0)
         DeleteBook.ClickIcon)
    = Some {| DeleteBook.dialog := Some
         {| DeleteBook.dialog_description :=
              "Are you sure you want to delete " +:+ Js.dquote +:+ Client.pub_title book
              +:+ Js.dquote +:+ " (ISBN: " +:+ Client.pub_isbn book
              +:+ ")? This action cannot be undone.";
            DeleteBook.action_label := "Delete";
            DeleteBook.action_disabled := false |} |}.
Proof.
  intros Hsuper.
  unfold Books.render, Books.render_row, DeleteBook.step, DeleteBook.enabled,
    DeleteBook.render.
  rewrite Hsuper. simpl. split_and!; try done.
Qed.

Lemma superuser_sees_add_and_delete_witness :
  let admin := {| Client.email := "admin@example.com"; Client.full_name := None;
                  Client.is_superuser := Some true |} in
  let dune := {| Client.pub_isbn := "978-0"; Client.pub_title := "Dune" |} in
  Books.add_book_link (Books.render (Some admin) Books.mount) = Some "/books/add"
  ∧ DeleteBook.render dune (Some admin) (DeleteBook.mount [] ∅)
    = Some {| DeleteBook.dialog := None |}.
Proof.
  intros admin dune.
  destruct (superuser_sees_add_and_delete (Some admin) Books.mount dune false [] ∅ eq_refl)
    as (Hadd & _ & Hicon & _).
  split; [exact Hadd | exact Hicon].
Defined.

(** ** More on the add form and its route *)

Lemma add_run_snoc (s : AddBook.State) evs ev :
  AddBook.run s (evs ++ [ev]) = AddBook.step (AddBook.run s evs) ev.
Proof. unfold AddBook.run. by rewrite foldl_snoc. Qed.

(** A step adds at most one request, built from the current values, and
    only when the three fields are filled. *)
Lemma add_step_requests (s : AddBook.State) ev :
  AddBook.requests (AddBook.step s ev) = AddBook.requests s
  ∨ (ev = AddBook.Submit
     ∧ QueryClient.isPending (AddBook.status s) = false
     ∧ (AddBook.isbn (AddBook.values s) ≠ "" ∧ AddBook.title (AddBook.values s) ≠ ""
        ∧ AddBook.authorName (AddBook.values s) ≠ "")
     ∧ AddBook.requests (AddBook.step s ev)
       = {| Client.new_isbn := AddBook.isbn (AddBook.values s);
            Client.new_title := AddBook.title (AddBook.values s);
            Client.new_authorName := AddBook.authorName (AddBook.values s) |}
         :: AddBook.requests s).
Proof.
  unfold AddBook.step. destruct (AddBook.enabled ev s) eqn:Hen; [|by left].
  destruct ev; simpl in *; try by left.
  rewrite handleSubmit_requests.
  destruct (AddBook.has_errors (AddBook.bookSchema (AddBook.values s))) eqn:Herr; [by left|].
  apply bookSchema_passes in Herr as (Hi & Ht & Hn). apply negb_true_iff in Hen.
  right. by split_and!.
Qed.

(** X14: when the create request succeeds, a toast announces it, every
    cache entry whose key starts with [books] is marked invalidated, others
    are untouched, and the router moves to [/books]; when it fails, a
    destructive toast carries the error's message or the generic text, and
    the entered values, the shown errors, the location and the cache are as
    before, with the submit button enabled again. *)
Theorem create_settlement_effects (s : AddBook.State) (e : Client.ApiError) :
  (0 < AddBook.inflight s)%nat →
  let ok := AddBook.step s AddBook.Resolved in
  let ko := AddBook.step s (AddBook.Rejected e) in
  (AddBook.toasts ok =
     {| UseToast.toast_title := "Book created";
        UseToast.toast_description := "The book has been added successfully.";
        UseToast.toast_variant := None |} :: AddBook.toasts s
   ∧ (∀ key, ["books"] `prefix_of` key →
        AddBook.cache ok !! key = QueryClient.invalidate <$> AddBook.cache s !! key)
   ∧ (∀ key, ¬ ["books"] `prefix_of` key → AddBook.cache ok !! key = AddBook.cache s !! key)
   ∧ AddBook.location ok = "/books")
  ∧ (AddBook.toasts ko =
       {| UseToast.toast_title := "Error creating book";
          UseToast.toast_description :=
            match Client.message e with
            | Some m => if decide (m = "") then "An error occurred while creating the book." else m
            | None => "An error occurred while creating the book."
            end;
          UseToast.toast_variant := Some "destructive" |} :: AddBook.toasts s
     ∧ AddBook.values ko = AddBook.values s
     ∧ AddBook.errors ko = AddBook.errors s
     ∧ AddBook.location ko = AddBook.location s
     ∧ AddBook.cache ko = AddBook.cache s
     ∧ AddBook.submit_disabled (AddBook.render ko) = false).
Proof.
  intros Hfly. unfold AddBook.step, AddBook.enabled.
  rewrite bool_decide_true by done. simpl.
  split; split_and!; try done.
  - intros key Hkey%partialMatchKey_prefix.
    by rewrite lookup_invalidateQueries, Hkey.
  - intros key Hkey. rewrite lookup_invalidateQueries.
    destruct (QueryClient.partialMatchKey ["books"] key) eqn:Hm.
    + by apply partialMatchKey_prefix in Hm.
    + by destruct (AddBook.cache s !! key).
  - do 2 f_equal. destruct (Client.message e) as [[|c m]|]; by simpl.
Qed.

Lemma create_settlement_effects_witness :
  let s := AddBook.run (AddBook.mount [] ∅)
             [AddBook.Input AddBook.Isbn "111"; AddBook.Input AddBook.Title "Dune";
              AddBook.Input AddBook.AuthorName "Frank Herbert"; AddBook.Submit] in
  AddBook.location (AddBook.step s AddBook.Resolved) = "/books"
  ∧ AddBook.location (AddBook.step s (AddBook.Rejected {| Client.message := Some "" |}))
    = "/books/add"
  ∧ UseToast.toast_description
      <$> AddBook.toasts (AddBook.step s (AddBook.Rejected {| Client.message := Some "" |}))
    = ["An error occurred while creating the book."].
Proof.
  intros s.
  destruct (create_settlement_effects s {| Client.message := Some "" |}
              ltac:(vm_compute; lia))
    as [(_ & _ & _ & Hgo) (Htoast & _ & _ & Hstay & _)].
  split_and!; [exact Hgo | by rewrite Hstay | by rewrite Htoast].
Defined.

(** X16: no [createBook] request with an empty isbn, title or author name
    is ever sent, whatever is typed and however often the form is submitted
    or a request settles. *)
Theorem created_requests_are_complete
    (toasts0 : list UseToast.Toast)
    (cache0 : gmap (list string) (QueryClient.Query Client.BooksSearchResponse))
    (evs : list AddBook.Event) :
  Forall (λ r, Client.new_isbn r ≠ "" ∧ Client.new_title r ≠ ""
               ∧ Client.new_authorName r ≠ "")
    (AddBook.requests (AddBook.run (AddBook.mount toasts0 cache0) evs)).
Proof.
  induction evs as [|ev evs IH] using rev_ind; [by apply Forall_nil|].
  rewrite add_run_snoc.
  destruct (add_step_requests (AddBook.run (AddBook.mount toasts0 cache0) evs) ev)
    as [-> | (_ & _ & Hfilled & ->)]; [done|].
  by apply Forall_cons.
Qed.

(** X17: after a failed create the form can be sent again as it stands:
    the entered values are still there, the submit button is enabled, and
    with the three fields filled a new submission sends these values. *)
Theorem create_retry_after_failure (s : AddBook.State) (e : Client.ApiError) :
  (0 < AddBook.inflight s)%nat →
  AddBook.isbn (AddBook.values s) ≠ "" →
  AddBook.title (AddBook.values s) ≠ "" →
  AddBook.authorName (AddBook.values s) ≠ "" →
  let failed := AddBook.step s (AddBook.Rejected e) in
  AddBook.field_values (AddBook.render failed) = AddBook.values s
  ∧ AddBook.submit_disabled (AddBook.render failed) = false
  ∧ AddBook.submit_label (AddBook.render failed) = "Add Book"
  ∧ AddBook.requests (AddBook.step failed AddBook.Submit)
    = {| Client.new_isbn := AddBook.isbn (AddBook.values s);
         Client.new_title := AddBook.title (AddBook.values s);
         Client.new_authorName := AddBook.authorName (AddBook.values s) |}
      :: AddBook.requests s.
Proof.
  intros Hfly Hi Ht Hn. cbn zeta.
  assert (Hfailed : AddBook.step s (AddBook.Rejected e)
                    = AddBook.onError e (AddBook.settled QueryClient.error s)).
  { unfold AddBook.step, AddBook.enabled. by rewrite bool_decide_true. }
  rewrite Hfailed. split_and!; try done.
  unfold AddBook.step. simpl. rewrite handleSubmit_requests. simpl.
  assert (Hok : AddBook.has_errors (AddBook.bookSchema (AddBook.values s)) = false)
    by (by apply bookSchema_passes).
  by rewrite Hok.
Qed.

Lemma create_retry_after_failure_witness :
  AddBook.requests
    (AddBook.run (AddBook.mount [] ∅)
       [AddBook.Input AddBook.Isbn "111"; AddBook.Input AddBook.Title "Dune";
        AddBook.Input AddBook.AuthorName "Frank Herbert"; AddBook.Submit;
        AddBook.Rejected {| Client.message := Some "ISBN already exists" |};
        AddBook.Submit])
  = [{| Client.new_isbn := "111"; Client.new_title := "Dune";
        Client.new_authorName := "Frank Herbert" |};
     {| Client.new_isbn := "111"; Client.new_title := "Dune";
        Client.new_authorName := "Frank Herbert" |}].
Proof.
  destruct (create_retry_after_failure
              (AddBook.run (AddBook.mount [] ∅)
                 [AddBook.Input AddBook.Isbn "111"; AddBook.Input AddBook.Title "Dune";
                  AddBook.Input AddBook.AuthorName "Frank Herbert"; AddBook.Submit])
              {| Client.message := Some "ISBN already exists" |}
              ltac:(vm_compute; lia) ltac:(discriminate) ltac:(discriminate)
              ltac:(discriminate))
    as (_ & _ & _ & Hretry).
  exact Hretry.
Defined.

Lemma page_run_snoc (s : AddBook.State) evs ev :
  AddBookPage.run s (evs ++ [ev]) = AddBookPage.step (AddBookPage.run s evs) ev.
Proof. unfold AddBookPage.run. by rewrite foldl_snoc. Qed.

(** What one event of the add page does to the location and the cache. *)
Lemma page_step_location_cache (s : AddBook.State) (ev : AddBookPage.Event) :
  (ev ≠ AddBookPage.Form AddBook.Resolved →
     AddBook.cache (AddBookPage.step s ev) = AddBook.cache s)
  ∧ (ev ≠ AddBookPage.Form AddBook.Resolved → ev ≠ AddBookPage.ClickBack →
     ev ≠ AddBookPage.ClickCancel →
     AddBook.location (AddBookPage.step s ev) = AddBook.location s)
  ∧ (AddBook.location (AddBookPage.step s ev) = AddBook.location s
     ∨ AddBook.location (AddBookPage.step s ev) = "/books").
Proof.
  destruct ev as [ev| |]; simpl; [|(split_and!; by auto)..].
  unfold AddBook.step. destruct (AddBook.enabled ev s); [|split_and!; by auto].
  destruct ev; simpl; try (split_and!; by auto).
  unfold AddBook.handleSubmit.
  destruct (AddBook.has_errors (AddBook.bookSchema (AddBook.values s)));
    split_and!; by auto.
Qed.

(** X18: on the add page the location changes only through a create
    request that resolved or a click on one of the two links to the list,
    and then to [/books]; the query cache changes only through a create
    request that resolved. Typing, submissions and failed requests change
    neither. *)
Theorem add_page_leaves_only_by_success_or_link
    (s : AddBook.State) (evs : list AddBookPage.Event) :
  let s' := AddBookPage.run s evs in
  (AddBookPage.Form AddBook.Resolved ∉ evs → AddBook.cache s' = AddBook.cache s)
  ∧ (AddBookPage.Form AddBook.Resolved ∉ evs → AddBookPage.ClickBack ∉ evs →
     AddBookPage.ClickCancel ∉ evs → AddBook.location s' = AddBook.location s)
  ∧ (AddBook.location s' = AddBook.location s ∨ AddBook.location s' = "/books").
Proof.
  cbn zeta. induction evs as [|ev evs (IHcache & IHloc & IHto)] using rev_ind;
    [split_and!; by auto|].
  rewrite page_run_snoc.
  destruct (page_step_location_cache (AddBookPage.run s evs) ev) as (Hcache & Hloc & Hto).
  assert (Hlast : ∀ late, late ∉ (evs ++ [ev]) → (late ∉ evs) ∧ (ev ≠ late)).
  { intros late Hno. split.
    - intros Hin. apply Hno, elem_of_app. by left.
    - intros ->. apply Hno, elem_of_app. right. by apply list_elem_of_singleton. }
  split_and!.
  - intros [Hno Hev]%Hlast. rewrite Hcache by done. by apply IHcache.
  - intros [Hno Hev]%Hlast [Hno1 Hev1]%Hlast [Hno2 Hev2]%Hlast.
    rewrite Hloc by done. by apply IHloc.
  - destruct Hto as [-> | ->]; [done | by right].
Qed.

Lemma add_page_leaves_only_by_success_or_link_witness :
  let typed := [AddBookPage.Form (AddBook.Input AddBook.Isbn "111");
                AddBookPage.Form (AddBook.Input AddBook.Title "Dune");
                AddBookPage.Form (AddBook.Input AddBook.AuthorName "Frank Herbert");
                AddBookPage.Form AddBook.Submit;
                AddBookPage.Form (AddBook.Rejected {| Client.message := None |})] in
  AddBook.location (AddBookPage.run (AddBook.mount [] ∅) typed) = "/books/add"
  ∧ AddBook.location (AddBookPage.run (AddBook.mount [] ∅) (typed ++ [AddBookPage.ClickCancel]))
    = "/books".
Proof.
  intros typed.
  destruct (add_page_leaves_only_by_success_or_link (AddBook.mount [] ∅) typed)
    as (_ & Hstay & _).
  split; [|reflexivity].
  apply Hstay; intros Hin;
    repeat (apply elem_of_cons in Hin as [Hin | Hin]; [discriminate|]);
    by apply elem_of_nil in Hin.
Defined.

(** X19: a fetched user whose [is_superuser] is true passes the guard and
    gets the form with its three fields empty and no error shown; when the
    fetch of the user fails, the guard rethrows the error: the form is not
    mounted and nothing redirects. *)
Theorem add_route_admits_superuser
    (user : Client.UserPublic) (toasts0 : list UseToast.Toast)
    (cache0 : gmap (list string) (QueryClient.Query Client.BooksSearchResponse)) :
  Client.is_superuser user = Some true →
  AddBook.beforeLoad (inl user) = AddBook.Continue
  ∧ (∃ s, AddBook.load (inl user) toasts0 cache0 = AddBook.Rendered s
          ∧ AddBook.field_values (AddBook.render s)
            = {| AddBook.isbn := ""; AddBook.title := ""; AddBook.authorName := "" |}
          ∧ AddBook.field_messages (AddBook.render s) = AddBook.no_errors
          ∧ AddBook.submit_disabled (AddBook.render s) = false
          ∧ AddBook.requests s = []
          ∧ AddBook.toasts s = toasts0 ∧ AddBook.cache s = cache0)
  ∧ ∀ e, AddBook.load (inr e) toasts0 cache0 = AddBook.Failed e.
Proof.
  intros Hsuper. unfold AddBook.load, AddBook.beforeLoad. rewrite Hsuper. simpl.
  split_and!; try done. by eexists.
Qed.

Lemma add_route_admits_superuser_witness :
  ∃ s, AddBook.load
         (inl {| Client.email := "admin@example.com"; Client.full_name := None;
                 Client.is_superuser := Some true |}) [] ∅
       = AddBook.Rendered s
       ∧ AddBook.requests s = [].
Proof.
  destruct (add_route_admits_superuser
              {| Client.email := "admin@example.com"; Client.full_name := None;
                 Client.is_superuser := Some true |} [] ∅ eq_refl)
    as (_ & (s & Hload & _ & _ & _ & Hnone & _) & _).
  exists s. split; [exact Hload | exact Hnone].
Defined.

(** ** The dashboard greeting *)

(** X20: the dashboard greets a signed-in user whose email is not empty by
    a name that is not empty: the full name when there is a non-empty one,
    the email otherwise; without a user there is no name. *)
Theorem dashboard_greets_by_name_or_email (user : Client.UserPublic) :
  Client.email user ≠ "" →
  Dashboard.display_name None = None
  ∧ ∃ name, Dashboard.display_name (Some user) = Some name
            ∧ name ≠ ""
            ∧ (Client.full_name user = Some name
               ∨ (name = Client.email user
                  ∧ (Client.full_name user = None ∨ Client.full_name user = Some ""))).
Proof.
  intros Hmail. split; [done|].
  unfold Dashboard.display_name, Dashboard.or_. simpl.
  destruct (Client.full_name user) as [[|c n]|]; simpl.
  - exists (Client.email user). split_and!; auto.
  - exists (String c n). split_and!; auto.
  - exists (Client.email user). split_and!; auto.
Qed.

Lemma dashboard_greets_by_name_or_email_witness :
  ∃ name,
    Dashboard.display_name
      (Some {| Client.email := "reader@example.com"; Client.full_name := Some "";
               Client.is_superuser := None |})
    = Some name
    ∧ name ≠ "".
Proof.
  destruct (dashboard_greets_by_name_or_email
              {| Client.email := "reader@example.com"; Client.full_name := Some "";
                 Client.is_superuser := None |} ltac:(discriminate))
    as (_ & name & Hname & Hfilled & _).
  exists name. split; [exact Hname | exact Hfilled].
Defined.
